(** * pkg/server/server.go of k8sgpt: a shallow embedding

    The file embeds the three servers of [pkg/server/server.go]: the primary
    API server ([Serve], [Shutdown], [grpcHandlerFunc]), the metrics server
    ([ServeMetrics]) and the Alertmanager webhook ([ServeAlerts]).

    Conventions.
    - A Go [string] is a [string]; a Go [int] is a [Z]; a Go [map] is a
      [gmap]; a Go slice is a [list]; a pointer or interface value that may
      be [nil] is an [option].
    - An [http.ResponseWriter] is the sequence of calls made on it, from
      which status code and body are read back.
    - Calls that leave the package (the listener, the JSON decoder, the
      gateway registration, the analysis service) are fields of the class
      [External]; every theorem holds for every instance of it. *)

From Stdlib Require Import ZArith Ascii String.
From stdpp Require Import base option list gmap strings.

Local Open Scope string_scope.
Local Open Scope Z_scope.
Local Open Scope list_scope.

(** ** Package [strings] *)

(** [strings.HasPrefix(s, prefix)]. *)
Fixpoint strings_HasPrefix (s prefix : string) {struct prefix} : bool :=
  match prefix with
  | EmptyString => true
  | String c prefix' =>
      match s with
      | EmptyString => false
      | String d s' => Ascii.eqb d c && strings_HasPrefix s' prefix'
      end
  end.

(** [strings.Contains(s, substr)]: [substr] occurs at some offset of [s]. *)
Fixpoint strings_Contains (s substr : string) : bool :=
  strings_HasPrefix s substr ||
  match s with
  | EmptyString => false
  | String _ s' => strings_Contains s' substr
  end.

(** ** Package [errors] *)

(** An [error] value: the sentinel [http.ErrServerClosed], the sentinel
    [net.ErrClosed], any other leaf error with its text, and an error that
    wraps another one ([Unwrap]). *)
Inductive error : Type :=
  | http_ErrServerClosed
  | net_ErrClosed
  | errorString (text : string)
  | wrapError (text : string) (err : error).

#[global] Instance error_eq_dec : EqDecision error.
Proof. solve_decision. Defined.

(** [err.Error()]. *)
Definition Error (err : error) : string :=
  match err with
  | http_ErrServerClosed => "http: Server closed"
  | net_ErrClosed => "use of closed network connection"
  | errorString text => text
  | wrapError text _ => text
  end.

(** [errors.Is(err, target)]: [target] is met along the [Unwrap] chain. *)
Fixpoint errors_Is (err target : error) : bool :=
  bool_decide (err = target) ||
  match err with
  | wrapError _ inner => errors_Is inner target
  | _ => false
  end.

(** ** Package [net/http] *)

(** [http.Header] and [url.Values]: a key maps to its values in order. *)
Abbreviation Values := (gmap string (list string)).

(** [Header.Get] and [Values.Get]: the first value at the key, or the empty
    string.  The keys this package asks for are already in canonical form. *)
Definition Values_Get (v : Values) (key : string) : string :=
  match v !! key with
  | Some (x :: _) => x
  | _ => ""
  end.

(** The part of [*http.Request] the handlers read.  [Query] is what
    [r.URL.Query()] returns. *)
Record Request : Type := mkRequest {
  ProtoMajor : Z;
  Header : Values;
  Path : string;
  Query : Values;
  Body : string
}.

(** One call on an [http.ResponseWriter]. *)
Inductive WriterCall : Type :=
  | CallWriteHeader (statusCode : Z)
  | CallWrite (data : string).

#[global] Instance WriterCall_eq_dec : EqDecision WriterCall.
Proof. solve_decision. Defined.

(** An [http.ResponseWriter]: the calls made on it so far, oldest first. *)
Definition ResponseWriter : Type := list WriterCall.

Definition WriteHeader (statusCode : Z) (w : ResponseWriter) : ResponseWriter :=
  w ++ [CallWriteHeader statusCode].

Definition Write (data : string) (w : ResponseWriter) : ResponseWriter :=
  w ++ [CallWrite data].

Definition StatusOK : Z := 200.
Definition StatusNotFound : Z := 404.

(** The status line sent: the code of the first call when that call is
    [WriteHeader]; otherwise 200, which the first [Write] (or the end of the
    handler) sends implicitly.  Later [WriteHeader] calls are superfluous. *)
Definition statusCode (w : ResponseWriter) : Z :=
  match w with
  | CallWriteHeader c :: _ => c
  | _ => StatusOK
  end.

(** The response body: the data of the [Write] calls, in order. *)
Fixpoint body (w : ResponseWriter) : string :=
  match w with
  | [] => ""
  | CallWriteHeader _ :: w' => body w'
  | CallWrite data :: w' => data +:+ body w'
  end.

(** Whether the handler set a status itself. *)
Definition explicitStatus (w : ResponseWriter) : list Z :=
  omap (fun c => match c with CallWriteHeader n => Some n | _ => None end) w.

(** [http.Handler]: [ServeHTTP(w, r)] as a writer transformer. *)
Definition Handler : Type := ResponseWriter -> Request -> ResponseWriter.

(** ** The protocol multiplexer *)

(** [grpcHandlerFunc] delegates to [grpcServer] on incoming gRPC
    connections and to [otherHandler] otherwise. *)
Definition grpcHandlerFunc (grpcServer otherHandler : Handler) : Handler :=
  fun w r =>
    if (ProtoMajor r =? 2) &&
       strings_Contains (Values_Get (Header r) "Content-Type") "application/grpc"
    then grpcServer w r
    else otherHandler w r.

(** The condition of line 86 of the source, as a proposition: the protocol
    major version is 2 and the marker occurs in the content type. *)
Definition isGrpcRequest (protoMajor : Z) (contentType : string) : Prop :=
  protoMajor = 2 /\
  exists before after, contentType = before +:+ "application/grpc" +:+ after.

(** ** Alertmanager and schema types *)

Module models.

(** Modelled from the spec: the declaration of [models.PostableAlert]
    (Alertmanager API v2) is not part of this package.  Spec section 3
    gives an alert as a label mapping, which may hold the key "namespace",
    and a mutable annotation mapping; the webhook body is an array of
    alert objects that carry both maps. *)
Record PostableAlert : Type := mkPostableAlert {
  Labels : gmap string string;
  Annotations : gmap string string
}.

(** [models.PostableAlerts]: the decoded webhook body. *)
Abbreviation PostableAlerts := (list PostableAlert).

(** [alert.Annotations[key] = value]. *)
Definition setAnnotation (key value : string) (alert : PostableAlert) : PostableAlert :=
  {| Labels := Labels alert;
     Annotations := <[key := value]> (Annotations alert) |}.

End models.

Module schemav1.

(** Modelled from the spec: the generated message [schemav1.AnalyzeRequest]
    is not part of this package.  These are the fields of spec section 3;
    every field the webhook leaves out of its literal is the zero value. *)
Record AnalyzeRequest : Type := mkAnalyzeRequest {
  Backend : string;
  Language : string;
  Namespace : string;
  Filters : list string;
  Nocache : bool;
  Explain : bool
}.

(** [req.Namespace = namespace]. *)
Definition setNamespace (namespace : string) (req : AnalyzeRequest) : AnalyzeRequest :=
  {| Backend := Backend req;
     Language := Language req;
     Namespace := namespace;
     Filters := Filters req;
     Nocache := Nocache req;
     Explain := Explain req |}.

(** Modelled from the spec: one [schemav1.Result], of which the webhook
    reads the details string. *)
Record Result : Type := mkResult {
  Details : string
}.

(** Modelled from the spec: [schemav1.AnalyzeResponse], an ordered sequence
    of results. *)
Record AnalyzeResponse : Type := mkAnalyzeResponse {
  Results : list Result
}.

End schemav1.

(** ** Package [net] *)

(** A [net.Listener] is a handle; the process holds the set of listeners
    that are open. *)
Definition Listener : Type := positive.
Definition Net : Type := gset Listener.
Definition Conn : Type := positive.

(** [l.Close()]: closes an open listener; on a listener that is already
    closed it returns an error that wraps [net.ErrClosed]. *)
Definition Listener_Close (l : Listener) (n : Net) : option error * Net :=
  if decide (l ∈ n)
  then (None, n ∖ {[l]})
  else (Some (wrapError "close tcp: use of closed network connection" net_ErrClosed), n).

(** [l.Accept()] when the network has [pending] to deliver: a closed
    listener fails with an error that wraps [net.ErrClosed]. *)
Definition Listener_Accept (l : Listener) (pending : Conn) (n : Net) : error + Conn :=
  if decide (l ∈ n)
  then inr pending
  else inl (wrapError "accept tcp: use of closed network connection" net_ErrClosed).

(** ** How a call ends *)

(** A call returns, ends the process ([os.Exit], as [log.Fatalln] does), or
    panics. *)
Inductive Outcome (A : Type) : Type :=
  | Returns (a : A)
  | Exits (code : Z)
  | Panics (reason : string).

Arguments Returns {A} a.
Arguments Exits {A} code.
Arguments Panics {A} reason.

(** ** What the package calls but does not define *)

Class External : Type := {
  (** [config.Handler] and [analyze.Handler], with the value of the
      composite literals [config.Handler{}] and [analyze.Handler{}]. *)
  config_Handler : Type;
  analyze_Handler : Type;
  config_Handler_empty : config_Handler;
  analyze_Handler_empty : analyze_Handler;
  (** [net.Listen(network, address)]. *)
  net_Listen : string -> string -> error + Listener;
  (** [grpcServer.ServeHTTP] and the gateway mux's [ServeHTTP]. *)
  grpc_Server_ServeHTTP : Handler;
  gwmux_ServeHTTP : Handler;
  (** The two [Register...HandlerFromEndpoint] calls, by endpoint. *)
  RegisterServerConfigServiceHandlerFromEndpoint : string -> option error;
  RegisterServerAnalyzerServiceHandlerFromEndpoint : string -> option error;
  (** [srv.Serve(lis)] of an [http.Server] with the given address and
      handler, and [grpcServer.Serve(lis)]: the error they end with. *)
  http_Server_Serve : string -> Handler -> Listener -> option error;
  grpc_Server_Serve : Listener -> option error;
  (** [srv.ListenAndServe()] of an [http.Server] with the given address. *)
  http_Server_ListenAndServe : string -> option error;
  (** [promhttp.Handler()]. *)
  promhttp_Handler : Handler;
  (** [json.NewDecoder(r.Body).Decode(&alerts)]. *)
  json_Decode : string -> error + models.PostableAlerts;
  (** The analysis service behind the method [Analyze] of
      [analyze.Handler]: its state,
      and a call on a receiver (possibly [nil]) with a request. *)
  Service : Type;
  Analyze : option analyze_Handler -> schemav1.AnalyzeRequest -> Service ->
            (error + schemav1.AnalyzeResponse) * Service
}.

(** ** The package *)

(** The two closures the package installs as [http.Server.Handler]. *)
Inductive HandlerFunc : Type :=
  | metricsHandlerFunc
  | alertsHandlerFunc.

(** [http.Server], with the fields the package sets.  [ReadHeaderTimeout]
    is in seconds. *)
Record http_Server : Type := mkServer {
  Addr : string;
  ReadHeaderTimeout : Z;
  ServerHandler : option HandlerFunc
}.

Record Health : Type := mkHealth {
  Status : string;
  Success : Z;
  Failure : Z
}.

Definition health : Health :=
  {| Status := "ok"; Success := 0; Failure := 0 |}.

(** One call of the analysis service, as the webhook makes it: the receiver,
    the alert the loop is at, and the request passed. *)
Record AnalyzeCall `{External} : Type := mkAnalyzeCall {
  call_receiver : option analyze_Handler;
  call_alert : models.PostableAlert;
  call_request : schemav1.AnalyzeRequest
}.

Section Server.
Context `{External}.

(** [Config].  The field [Logger] is left out: what the package logs is
    returned as lines. *)
Record Config : Type := mkConfig {
  Port : string;
  MetricsPort : string;
  AlertmanagerPort : string;
  Backend : string;
  Key : string;
  Token : string;
  Output : string;
  ConfigHandler : option config_Handler;
  AnalyzeHandler : option analyze_Handler;
  metricsServer : option http_Server;
  alertmanagerServer : option http_Server;
  listener : option Listener;
  EnableHttp : bool
}.

(** [Shutdown] closes the listener; the call on a [nil] interface value
    panics. *)
Definition Shutdown (s : Config) (n : Net) : Outcome (option error) * Net :=
  match listener s with
  | None => (Panics "invalid memory address or nil pointer dereference", n)
  | Some l => let '(err, n') := Listener_Close l n in (Returns err, n')
  end.

(** Lines 105 to 107 of [Serve]. *)
Definition bindListener (lis : Listener) (s : Config) : Config :=
  {| Port := Port s;
     MetricsPort := MetricsPort s;
     AlertmanagerPort := AlertmanagerPort s;
     Backend := Backend s;
     Key := Key s;
     Token := Token s;
     Output := Output s;
     ConfigHandler := Some config_Handler_empty;
     AnalyzeHandler := Some analyze_Handler_empty;
     metricsServer := metricsServer s;
     alertmanagerServer := alertmanagerServer s;
     listener := Some lis;
     EnableHttp := EnableHttp s |}.

(** [Serve]: the configuration it leaves, the lines it logs, and how it
    ends. *)
Definition Serve (s : Config) : Config * list string * Outcome (option error) :=
  let address := ":" +:+ Port s in
  match net_Listen "tcp" address with
  | inl err => (s, [], Returns (Some err))
  | inr lis =>
      let s := bindListener lis s in
      let logged := ["binding api to " +:+ Port s] in
      if EnableHttp s then
        let logged := logged ++ ["enabling rest/http api"] in
        match RegisterServerConfigServiceHandlerFromEndpoint ("localhost:" +:+ Port s) with
        | Some err =>
            (s, logged ++ ["Failed to register gateway: " +:+ Error err], Exits 1)
        | None =>
            match RegisterServerAnalyzerServiceHandlerFromEndpoint ("localhost:" +:+ Port s) with
            | Some err =>
                (s, logged ++ ["Failed to register gateway: " +:+ Error err], Exits 1)
            | None =>
                match http_Server_Serve address
                        (grpcHandlerFunc grpc_Server_ServeHTTP gwmux_ServeHTTP) lis with
                | Some err => (s, logged, Returns (Some err))
                | None => (s, logged, Returns None)
                end
            end
        end
      else
        match grpc_Server_Serve lis with
        | Some err =>
            if negb (errors_Is err http_ErrServerClosed)
            then (s, logged, Returns (Some err))
            else (s, logged, Returns None)
        | None => (s, logged, Returns None)
        end
  end.

Definition setMetricsServer (srv : http_Server) (s : Config) : Config :=
  {| Port := Port s;
     MetricsPort := MetricsPort s;
     AlertmanagerPort := AlertmanagerPort s;
     Backend := Backend s;
     Key := Key s;
     Token := Token s;
     Output := Output s;
     ConfigHandler := ConfigHandler s;
     AnalyzeHandler := AnalyzeHandler s;
     metricsServer := Some srv;
     alertmanagerServer := alertmanagerServer s;
     listener := listener s;
     EnableHttp := EnableHttp s |}.

Definition setAlertmanagerServer (srv : http_Server) (s : Config) : Config :=
  {| Port := Port s;
     MetricsPort := MetricsPort s;
     AlertmanagerPort := AlertmanagerPort s;
     Backend := Backend s;
     Key := Key s;
     Token := Token s;
     Output := Output s;
     ConfigHandler := ConfigHandler s;
     AnalyzeHandler := AnalyzeHandler s;
     metricsServer := metricsServer s;
     alertmanagerServer := Some srv;
     listener := listener s;
     EnableHttp := EnableHttp s |}.

(** The closure [ServeMetrics] installs, lines 154 to 163.  It is created
    in a method of [s] and reads nothing of it. *)
Definition metricsHandler (s : Config) : Handler :=
  fun w r =>
    if String.eqb (Path r) "/healthz" then WriteHeader StatusOK w
    else if String.eqb (Path r) "/metrics" then promhttp_Handler w r
    else WriteHeader StatusNotFound w.

Definition ServeMetrics (s : Config) : Config * list string * option error :=
  let logged := ["binding metrics to " +:+ MetricsPort s] in
  let s := setMetricsServer
             {| Addr := ":" +:+ MetricsPort s;
                ReadHeaderTimeout := 3;
                ServerHandler := Some metricsHandlerFunc |} s in
  match http_Server_ListenAndServe (":" +:+ MetricsPort s) with
  | Some err =>
      if negb (errors_Is err http_ErrServerClosed)
      then (s, logged, Some err)
      else (s, logged, None)
  | None => (s, logged, None)
  end.

(** *** The webhook *)

(** What the loop over the alerts carries from one alert to the next: the
    response writer, the request object [analyzeRequest] (one object, made
    before the loop and passed by pointer to every call), the state of the
    analysis service, and the calls made on it. *)
Record LoopState : Type := mkLoopState {
  loop_w : ResponseWriter;
  loop_request : schemav1.AnalyzeRequest;
  loop_service : Service;
  loop_calls : list AnalyzeCall
}.

(** The loop goes on to the next alert, or the handler has returned. *)
Inductive Flow : Type :=
  | Continue
  | Return.

(** The inner loop, lines 209 to 211. *)
Definition annotate (annotation : string) (results : list schemav1.Result)
    (alert : models.PostableAlert) : models.PostableAlert :=
  foldl (fun alert result =>
           models.setAnnotation annotation (schemav1.Details result) alert)
        alert results.

(** Lines 202 to 204: the request object after the namespace label of
    [alert] has been looked up. *)
Definition requestFor (alert : models.PostableAlert)
    (analyzeRequest : schemav1.AnalyzeRequest) : schemav1.AnalyzeRequest :=
  match models.Labels alert !! "namespace" with
  | Some namespace => schemav1.setNamespace namespace analyzeRequest
  | None => analyzeRequest
  end.

(** The body of the loop over the alerts, lines 202 to 212. *)
Definition alertBody (s : Config) (annotation : string)
    (alert : models.PostableAlert) (st : LoopState) :
    Flow * models.PostableAlert * LoopState :=
  let analyzeRequest := requestFor alert (loop_request st) in
  let '(answer, service) :=
    Analyze (AnalyzeHandler s) analyzeRequest (loop_service st) in
  let calls := loop_calls st ++ [mkAnalyzeCall _ (AnalyzeHandler s) alert analyzeRequest] in
  match answer with
  | inl err =>
      (Return, alert,
       {| loop_w := Write ("analyze. err: " +:+ Error err) (loop_w st);
          loop_request := analyzeRequest;
          loop_service := service;
          loop_calls := calls |})
  | inr resp =>
      (Continue, annotate annotation (schemav1.Results resp) alert,
       {| loop_w := loop_w st;
          loop_request := analyzeRequest;
          loop_service := service;
          loop_calls := calls |})
  end.

(** [for _, alert := range alerts], lines 201 to 213. *)
Fixpoint rangeAlerts (s : Config) (annotation : string)
    (alerts : models.PostableAlerts) (st : LoopState) :
    Flow * models.PostableAlerts * LoopState :=
  match alerts with
  | [] => (Continue, [], st)
  | alert :: rest =>
      match alertBody s annotation alert st with
      | (Return, alert', st') => (Return, alert' :: rest, st')
      | (Continue, alert', st') =>
          let '(flow, rest', st'') := rangeAlerts s annotation rest st' in
          (flow, alert' :: rest', st'')
      end
  end.

(** What one webhook call leaves behind: the response writer, the decoded
    alerts as the handler leaves them, the state of the analysis service,
    the calls made on it, and the lines logged. *)
Record AlertsRun : Type := mkAlertsRun {
  run_w : ResponseWriter;
  run_alerts : models.PostableAlerts;
  run_service : Service;
  run_calls : list AnalyzeCall;
  run_logged : list string
}.

(** The request the webhook prepares from the URL parameters, lines 179
    to 186. *)
Definition prepareRequest (params : Values) : schemav1.AnalyzeRequest :=
  {| schemav1.Backend := Values_Get params "backend";
     schemav1.Language := Values_Get params "language";
     schemav1.Namespace := "";
     schemav1.Filters := default [] (params !! "filters");
     schemav1.Nocache := true;
     schemav1.Explain := true |}.

(** The state in which the loop over the alerts is entered. *)
Definition loopEntry (w : ResponseWriter) (r : Request) (service : Service) : LoopState :=
  {| loop_w := w;
     loop_request := prepareRequest (Query r);
     loop_service := service;
     loop_calls := [] |}.

(** The closure [ServeAlerts] installs, lines 174 to 216.  [s] is the
    configuration as it is when the request arrives. *)
Definition alertsHandler (s : Config) (w : ResponseWriter) (r : Request)
    (service : Service) : AlertsRun :=
  let params := Query r in
  let analyzeRequest := prepareRequest params in
  let logged := ["extracting alert payload"] in
  match json_Decode (Body r) with
  | inl err =>
      {| run_w := Write ("decode alerts. err: " +:+ Error err) w;
         run_alerts := [];
         run_service := service;
         run_calls := [];
         run_logged := logged |}
  | inr alerts =>
      let annotation := Values_Get params "annotation" in
      let '(_, alerts', st) :=
        rangeAlerts s annotation alerts
          {| loop_w := w;
             loop_request := analyzeRequest;
             loop_service := service;
             loop_calls := [] |} in
      {| run_w := loop_w st;
         run_alerts := alerts';
         run_service := loop_service st;
         run_calls := loop_calls st;
         run_logged := logged |}
  end.

(** The calls the loop makes on [alerts], starting from the request
    object [analyzeRequest], as long as no call fails. *)
Fixpoint callsFor (s : Config) (analyzeRequest : schemav1.AnalyzeRequest)
    (alerts : models.PostableAlerts) : list AnalyzeCall :=
  match alerts with
  | [] => []
  | alert :: rest =>
      let analyzeRequest := requestFor alert analyzeRequest in
      mkAnalyzeCall _ (AnalyzeHandler s) alert analyzeRequest ::
      callsFor s analyzeRequest rest
  end.

(** The namespace an alert asks for: its "namespace" label, or the empty
    string when it has none. *)
Definition namespaceLabel (alert : models.PostableAlert) : string :=
  default "" (models.Labels alert !! "namespace").

Definition ServeAlerts (s : Config) : Config * option error :=
  let s := setAlertmanagerServer
             {| Addr := ":" +:+ AlertmanagerPort s;
                ReadHeaderTimeout := 0;
                ServerHandler := Some alertsHandlerFunc |} s in
  match http_Server_ListenAndServe (":" +:+ AlertmanagerPort s) with
  | Some err =>
      if negb (errors_Is err http_ErrServerClosed)
      then (s, Some err)
      else (s, None)
  | None => (s, None)
  end.

End Server.

(** ** A scripted instance of [External]

    Every external call answers from a script: [listen] is what
    [net.Listen] returns, [regConfig] and [regAnalyzer] what the two gateway
    registrations return, [served] the error the serving calls end with,
    [decoded] what the JSON decoder returns, and [answers n] what the
    analysis service answers to its call number [n] (from 0).  Handlers are
    named by a string, the empty handler by the empty string. *)
Definition scripted (listen : error + Listener) (regConfig regAnalyzer served : option error)
    (decoded : error + models.PostableAlerts)
    (answers : nat -> error + schemav1.AnalyzeResponse) : External :=
  {| config_Handler := string;
     analyze_Handler := string;
     config_Handler_empty := "";
     analyze_Handler_empty := "";
     net_Listen := fun _ _ => listen;
     grpc_Server_ServeHTTP := fun w _ => Write "grpc" w;
     gwmux_ServeHTTP := fun w _ => Write "gateway" w;
     RegisterServerConfigServiceHandlerFromEndpoint := fun _ => regConfig;
     RegisterServerAnalyzerServiceHandlerFromEndpoint := fun _ => regAnalyzer;
     http_Server_Serve := fun _ _ _ => served;
     grpc_Server_Serve := fun _ => served;
     http_Server_ListenAndServe := fun _ => served;
     promhttp_Handler := fun w _ => Write "# HELP" w;
     json_Decode := fun _ => decoded;
     Service := nat;
     Analyze := fun _ _ n => (answers n, S n) |}.

(** A configuration as the command line builds it: ports and backend, no
    handler supplied. *)
Definition exampleConfig `{External} (enableHttp : bool) : Config :=
  {| Port := "8080";
     MetricsPort := "8081";
     AlertmanagerPort := "8082";
     Backend := "openai";
     Key := "";
     Token := "";
     Output := "json";
     ConfigHandler := None;
     AnalyzeHandler := None;
     metricsServer := None;
     alertmanagerServer := None;
     listener := None;
     EnableHttp := enableHttp |}.

(** A configuration whose caller supplied the two handlers. *)
Definition withHandlers `{External} (configHandler : option config_Handler)
    (analyzeHandler : option analyze_Handler) (s : Config) : Config :=
  {| Port := Port s;
     MetricsPort := MetricsPort s;
     AlertmanagerPort := AlertmanagerPort s;
     Backend := Backend s;
     Key := Key s;
     Token := Token s;
     Output := Output s;
     ConfigHandler := configHandler;
     AnalyzeHandler := analyzeHandler;
     metricsServer := metricsServer s;
     alertmanagerServer := alertmanagerServer s;
     listener := listener s;
     EnableHttp := EnableHttp s |}.

(** The alert of the scenario of the spec, and an alert without labels. *)
Definition alertProd : models.PostableAlert :=
  {| models.Labels := {[ "namespace" := "prod" ]}; models.Annotations := ∅ |}.

Definition alertBare : models.PostableAlert :=
  {| models.Labels := ∅; models.Annotations := ∅ |}.

Definition onePod : schemav1.AnalyzeResponse :=
  {| schemav1.Results := [ {| schemav1.Details := "pod crashlooping" |} ] |}.

Definition exampleRequest (protoMajor : Z) (contentType path : string) : Request :=
  {| ProtoMajor := protoMajor;
     Header := {[ "Content-Type" := [contentType] ]};
     Path := path;
     Query := {[ "backend" := ["openai"]; "annotation" := ["summary"] ]};
     Body := "" |}.

(** An analysis service that answers its first call with [onePod] and fails
    every later call. *)
Definition failsAfterFirst (n : nat) : error + schemav1.AnalyzeResponse :=
  match n with
  | O => inr onePod
  | S _ => inl (errorString "backend unavailable")
  end.

(** ** Relations used to state further properties *)

(** [wraps target err]: [target] is [err] itself or is met by unwrapping
    [err] some number of times; the relation [errors.Is] decides. *)
Inductive wraps (target : error) : error -> Prop :=
  | wraps_here : wraps target target
  | wraps_inner (text : string) (err : error) :
      wraps target err -> wraps target (wrapError text err).

(** The namespace the request object holds after each alert of a batch,
    when it holds [namespace] before the first: an alert with the label
    sets it, an alert without leaves it. *)
Fixpoint carriedNamespaces (namespace : string) (alerts : models.PostableAlerts) :
    list string :=
  match alerts with
  | [] => []
  | alert :: rest =>
      let namespace := default namespace (models.Labels alert !! "namespace") in
      namespace :: carriedNamespaces namespace rest
  end.

(** The text [fmt.Errorf("serve: %w", err)] builds around an error. *)
Definition wrapped (err : error) : error :=
  wrapError ("serve: " +:+ Error err) err.

(** * Theorems *)

(** ** Facts about [strings] *)

Lemma strings_HasPrefix_spec (s prefix : string) :
  strings_HasPrefix s prefix = true <-> exists rest, s = prefix +:+ rest.
Proof.
  revert s. induction prefix as [|c p IH]; intros s; simpl.
  - split; [intros _; by exists s | done].
  - destruct s as [|d s'].
    + split; [done | intros [rest H]; discriminate].
    + rewrite andb_true_iff, Ascii.eqb_eq, IH. split.
      * intros [-> [rest ->]]. by exists rest.
      * intros [rest H]. injection H as -> ->. split; [done | by exists rest].
Qed.

Lemma strings_Contains_spec (s substr : string) :
  strings_Contains s substr = true <->
  exists before after, s = before +:+ substr +:+ after.
Proof.
  induction s as [|c s IH]; simpl.
  - rewrite orb_false_r, strings_HasPrefix_spec. split.
    + intros [rest H]. by exists "", rest.
    + intros [[|b before] [after H]]; simpl in H; [by exists after | discriminate].
  - rewrite orb_true_iff, strings_HasPrefix_spec, IH. split.
    + intros [[rest H] | (before & after & H)].
      * by exists "", rest.
      * exists (String c before), after. simpl. by rewrite H.
    + intros [[|b before] [after H]]; simpl in H.
      * left. by exists after.
      * right. injection H as -> ->. by exists before, after.
Qed.

(** ** The protocol multiplexer *)

Section Multiplexer.

Lemma grpc_condition (r : Request) :
  (ProtoMajor r =? 2) &&
    strings_Contains (Values_Get (Header r) "Content-Type") "application/grpc" = true <->
  isGrpcRequest (ProtoMajor r) (Values_Get (Header r) "Content-Type").
Proof.
  unfold isGrpcRequest.
  by rewrite andb_true_iff, Z.eqb_eq, strings_Contains_spec.
Qed.

Lemma grpcHandlerFunc_grpc (grpcServer otherHandler : Handler) w r :
  isGrpcRequest (ProtoMajor r) (Values_Get (Header r) "Content-Type") ->
  grpcHandlerFunc grpcServer otherHandler w r = grpcServer w r.
Proof.
  intros Hc. apply grpc_condition in Hc. unfold grpcHandlerFunc. by rewrite Hc.
Qed.

Lemma grpcHandlerFunc_other (grpcServer otherHandler : Handler) w r :
  ~ isGrpcRequest (ProtoMajor r) (Values_Get (Header r) "Content-Type") ->
  grpcHandlerFunc grpcServer otherHandler w r = otherHandler w r.
Proof.
  intros Hc. unfold grpcHandlerFunc.
  destruct (_ && _) eqn:E; [|done]. by apply grpc_condition in E.
Qed.

(** C1.  For every request, [grpcHandlerFunc] hands the request to the RPC
    dispatcher exactly when the protocol major version is 2 and the
    Content-Type header contains "application/grpc", and to the fallback
    handler exactly otherwise; which of the two it is depends on the
    protocol major version and the Content-Type header alone. *)
Theorem grpcHandlerFunc_routes :
  (forall r : Request,
     (forall grpcServer otherHandler w,
        grpcHandlerFunc grpcServer otherHandler w r = grpcServer w r) <->
     isGrpcRequest (ProtoMajor r) (Values_Get (Header r) "Content-Type")) /\
  (forall r : Request,
     (forall grpcServer otherHandler w,
        grpcHandlerFunc grpcServer otherHandler w r = otherHandler w r) <->
     ~ isGrpcRequest (ProtoMajor r) (Values_Get (Header r) "Content-Type")) /\
  (exists route : Z -> string -> bool,
     forall grpcServer otherHandler w r,
       grpcHandlerFunc grpcServer otherHandler w r =
       if route (ProtoMajor r) (Values_Get (Header r) "Content-Type")
       then grpcServer w r
       else otherHandler w r).
Proof.
  split; [|split].
  - intros r. split; [|intros; by apply grpcHandlerFunc_grpc].
    intros Hall.
    destruct ((ProtoMajor r =? 2) &&
              strings_Contains (Values_Get (Header r) "Content-Type")
                "application/grpc") eqn:E; [by apply grpc_condition|exfalso].
    assert (Hn : ~ isGrpcRequest (ProtoMajor r)
                   (Values_Get (Header r) "Content-Type")).
    { intros Hc. apply grpc_condition in Hc. congruence. }
    specialize (Hall (fun w _ => Write "grpc" w) (fun w _ => Write "other" w) []).
    rewrite grpcHandlerFunc_other in Hall by done. discriminate.
  - intros r. split; [|intros; by apply grpcHandlerFunc_other].
    intros Hall Hc.
    specialize (Hall (fun w _ => Write "grpc" w) (fun w _ => Write "other" w) []).
    rewrite grpcHandlerFunc_grpc in Hall by done. discriminate.
  - exists (fun protoMajor contentType =>
              (protoMajor =? 2) && strings_Contains contentType "application/grpc").
    reflexivity.
Qed.

End Multiplexer.

(** ** The response writer *)

Lemma append_empty_r (s : string) : s +:+ "" = s.
Proof.
  induction s as [|a s IH]; [done|].
  change (String a (s +:+ "") = String a s). by f_equal.
Qed.

Lemma append_assoc (s1 s2 s3 : string) : (s1 +:+ s2) +:+ s3 = s1 +:+ s2 +:+ s3.
Proof.
  induction s1 as [|a s1 IH]; [done|].
  change (String a ((s1 +:+ s2) +:+ s3) = String a (s1 +:+ s2 +:+ s3)). by f_equal.
Qed.

Lemma body_app (w1 w2 : ResponseWriter) : body (w1 ++ w2) = body w1 +:+ body w2.
Proof.
  induction w1 as [|[c|data] w1 IH]; simpl; [done|done|].
  by rewrite IH, append_assoc.
Qed.

Lemma body_Write (data : string) (w : ResponseWriter) :
  body (Write data w) = body w +:+ data.
Proof. unfold Write. rewrite body_app. simpl. by rewrite append_empty_r. Qed.

Lemma explicitStatus_Write (data : string) (w : ResponseWriter) :
  explicitStatus (Write data w) = explicitStatus w.
Proof.
  unfold explicitStatus, Write. rewrite omap_app. simpl. by rewrite app_nil_r.
Qed.

Lemma explicitStatus_WriteHeader (c : Z) (w : ResponseWriter) :
  explicitStatus (WriteHeader c w) = explicitStatus w ++ [c].
Proof. unfold explicitStatus, WriteHeader. by rewrite omap_app. Qed.

(** ** The metrics server *)

Section Metrics.
Context `{External}.

(** C7.  The metrics handler answers the path /healthz with status 200 and
    an empty body, whatever the configuration (backend included) and
    whatever the instance of the external calls; it hands the path /metrics
    to the metrics-exposition handler; it answers every other path with
    status 404. *)
Theorem metricsHandler_routes (s : Config) (r : Request) :
  (Path r = "/healthz" ->
     (forall w, metricsHandler s w r = WriteHeader 200 w) /\
     statusCode (metricsHandler s [] r) = 200 /\
     body (metricsHandler s [] r) = "") /\
  (Path r = "/metrics" ->
     forall w, metricsHandler s w r = promhttp_Handler w r) /\
  (Path r <> "/healthz" -> Path r <> "/metrics" ->
     (forall w, metricsHandler s w r = WriteHeader 404 w) /\
     statusCode (metricsHandler s [] r) = 404).
Proof.
  unfold metricsHandler. split; [|split].
  - intros ->. done.
  - intros ->. done.
  - intros H1 H2.
    apply String.eqb_neq in H1, H2. by rewrite H1, H2.
Qed.

End Metrics.

(** C7 at the requests [GET /healthz], [GET /metrics] and [GET /unknown]. *)
Lemma metricsHandler_routes_witness :
  let E := scripted (inr 1%positive) None None None (inr []) (fun _ => inl net_ErrClosed) in
  statusCode (@metricsHandler E (exampleConfig false) [] (exampleRequest 1 "" "/healthz")) = 200 /\
  body (@metricsHandler E (exampleConfig false) [] (exampleRequest 1 "" "/healthz")) = "" /\
  @metricsHandler E (exampleConfig false) [] (exampleRequest 1 "" "/metrics") =
    [CallWrite "# HELP"] /\
  statusCode (@metricsHandler E (exampleConfig false) [] (exampleRequest 1 "" "/unknown")) = 404.
Proof.
  intros E.
  pose proof (@metricsHandler_routes E (exampleConfig false)
                (exampleRequest 1 "" "/healthz")) as (H1 & _ & _).
  pose proof (@metricsHandler_routes E (exampleConfig false)
                (exampleRequest 1 "" "/metrics")) as (_ & H2 & _).
  pose proof (@metricsHandler_routes E (exampleConfig false)
                (exampleRequest 1 "" "/unknown")) as (_ & _ & H3).
  destruct (H1 eq_refl) as (_ & Hs & Hb).
  destruct (H3 ltac:(discriminate) ltac:(discriminate)) as (_ & Hn).
  split; [exact Hs|]. split; [exact Hb|]. split; [|exact Hn].
  rewrite (H2 eq_refl). reflexivity.
Defined.

(** ** The primary API server *)

Section Primary.
Context `{External}.

Lemma Serve_bind_error (s : Config) (err : error) :
  net_Listen "tcp" (":" +:+ Port s) = inl err ->
  Serve s = (s, [], Returns (Some err)).
Proof. intros Hl. unfold Serve. by rewrite Hl. Qed.

Lemma Serve_config (s : Config) (lis : Listener) :
  net_Listen "tcp" (":" +:+ Port s) = inr lis ->
  (Serve s).1.1 = bindListener lis s.
Proof.
  intros Hl. unfold Serve. rewrite Hl. simpl.
  repeat (case_match; simpl); done.
Qed.

(** Without the gateway, the error of [grpcServer.Serve] is returned
    unless it is [http.ErrServerClosed], which gives [nil]. *)
Lemma Serve_grpc_only (s : Config) (lis : Listener) (err : error) :
  EnableHttp s = false ->
  net_Listen "tcp" (":" +:+ Port s) = inr lis ->
  grpc_Server_Serve lis = Some err ->
  (Serve s).2 =
    if errors_Is err http_ErrServerClosed then Returns None else Returns (Some err).
Proof.
  intros He Hl Hs. unfold Serve. rewrite Hl. simpl. rewrite He, Hs.
  by destruct (errors_Is err http_ErrServerClosed).
Qed.

(** With the gateway, every error of [srv.Serve] is returned. *)
Lemma Serve_gateway (s : Config) (lis : Listener) (err : error) :
  EnableHttp s = true ->
  net_Listen "tcp" (":" +:+ Port s) = inr lis ->
  RegisterServerConfigServiceHandlerFromEndpoint ("localhost:" +:+ Port s) = None ->
  RegisterServerAnalyzerServiceHandlerFromEndpoint ("localhost:" +:+ Port s) = None ->
  http_Server_Serve (":" +:+ Port s)
    (grpcHandlerFunc grpc_Server_ServeHTTP gwmux_ServeHTTP) lis = Some err ->
  (Serve s).2 = Returns (Some err).
Proof.
  intros He Hl H1 H2 Hs. unfold Serve. rewrite Hl. simpl.
  by rewrite He, H1, H2, Hs.
Qed.

(** C8.  With the gateway enabled and the listener bound, a failure of
    either registration call ends the process ([log.Fatalln] exits with
    code 1): [Serve] returns nothing to its caller. *)
Theorem Serve_registration_fatal (s : Config) (lis : Listener) :
  EnableHttp s = true ->
  net_Listen "tcp" (":" +:+ Port s) = inr lis ->
  is_Some (RegisterServerConfigServiceHandlerFromEndpoint ("localhost:" +:+ Port s)) \/
  is_Some (RegisterServerAnalyzerServiceHandlerFromEndpoint ("localhost:" +:+ Port s)) ->
  (Serve s).2 = Exits 1 /\
  (forall result, (Serve s).2 <> Returns result) /\
  exists err, last (Serve s).1.2 = Some ("Failed to register gateway: " +:+ Error err).
Proof.
  intros He Hl Hreg. unfold Serve. rewrite Hl. simpl. rewrite He.
  destruct (RegisterServerConfigServiceHandlerFromEndpoint _) as [e1|] eqn:E1; simpl.
  - split; [done|]. split; [done|]. by exists e1.
  - destruct Hreg as [[? ?]|[e2 E2]]; [done|]. rewrite E2. simpl.
    split; [done|]. split; [done|]. by exists e2.
Qed.

(** [Shutdown] on a configuration without a listener panics. *)
Lemma Shutdown_unbound (s : Config) (n : Net) :
  listener s = None -> exists reason, (Shutdown s n).1 = Panics reason.
Proof. intros Hl. unfold Shutdown. rewrite Hl. by eexists. Qed.

(** C9.  Once [Serve] has bound the listener [lis]: a first [Shutdown]
    returns and leaves [lis] closed (with no error when [lis] was open),
    after which [Accept] on [lis] fails with an error that is
    [net.ErrClosed]; a second [Shutdown] returns as well (it does not
    panic), with the closed-listener error. *)
Theorem Shutdown_twice (s : Config) (lis : Listener) (n : Net) :
  net_Listen "tcp" (":" +:+ Port s) = inr lis ->
  let s' := (Serve s).1.1 in
  let first := Shutdown s' n in
  let second := Shutdown s' first.2 in
  listener s' = Some lis /\
  (exists err, first.1 = Returns err /\ (lis ∈ n -> err = None)) /\
  (lis ∉ first.2) /\
  (forall pending, exists err,
     Listener_Accept lis pending first.2 = inl err /\
     errors_Is err net_ErrClosed = true) /\
  (exists err, second.1 = Returns (Some err) /\ errors_Is err net_ErrClosed = true) /\
  (forall reason, second.1 <> Panics reason).
Proof.
  intros Hl s' first second.
  assert (Hs : listener s' = Some lis).
  { unfold s'. by rewrite (Serve_config s lis Hl). }
  assert (Hclosed : lis ∉ first.2).
  { unfold first, Shutdown, Listener_Close. rewrite Hs.
    destruct (decide (lis ∈ n)); simpl; [|done].
    rewrite elem_of_difference. intros [_ Hn]. apply Hn. by apply elem_of_singleton. }
  split; [done|]. split; [|split; [done|split; [|split]]].
  - unfold first, Shutdown, Listener_Close. rewrite Hs.
    destruct (decide (lis ∈ n)); simpl; eexists; (split; [done|]); done.
  - intros pending. unfold Listener_Accept. rewrite decide_False by done.
    eexists; split; [done|]. reflexivity.
  - unfold second, Shutdown, Listener_Close. rewrite Hs.
    rewrite decide_False by done. simpl. eexists; split; [done|]. reflexivity.
  - intros reason. unfold second, Shutdown, Listener_Close. rewrite Hs.
    rewrite decide_False by done. done.
Qed.

End Primary.

(** C8 when the first registration fails, and when only the second does. *)
Lemma Serve_registration_fatal_witness :
  (@Serve (scripted (inr 1%positive) (Some (errorString "connection refused")) None None
             (inr []) (fun _ => inl net_ErrClosed)) (exampleConfig true)).2 = Exits 1 /\
  (@Serve (scripted (inr 1%positive) None (Some (errorString "connection refused")) None
             (inr []) (fun _ => inl net_ErrClosed)) (exampleConfig true)).2 = Exits 1.
Proof.
  split.
  - apply (@Serve_registration_fatal
             (scripted (inr 1%positive) (Some (errorString "connection refused")) None None
                (inr []) (fun _ => inl net_ErrClosed))
             (exampleConfig true) 1%positive); [reflexivity|reflexivity|].
    left. simpl. eexists. reflexivity.
  - apply (@Serve_registration_fatal
             (scripted (inr 1%positive) None (Some (errorString "connection refused")) None
                (inr []) (fun _ => inl net_ErrClosed))
             (exampleConfig true) 1%positive); [reflexivity|reflexivity|].
    right. simpl. eexists. reflexivity.
Defined.

(** C9 on the listener 1, open when [Shutdown] is first called. *)
Lemma Shutdown_twice_witness :
  let E := scripted (inr 1%positive) None None None (inr []) (fun _ => inl net_ErrClosed) in
  let s' := (@Serve E (exampleConfig false)).1.1 in
  listener s' = Some 1%positive /\
  (@Shutdown E s' {[ 1%positive ]}).1 = Returns None /\
  (forall reason,
     (@Shutdown E s' (@Shutdown E s' {[ 1%positive ]}).2).1 <> Panics reason).
Proof.
  intros E s'.
  pose proof (@Shutdown_twice E (exampleConfig false) 1%positive {[ 1%positive ]} eq_refl)
    as (Hl & (err & Hfirst & Hopen) & _ & _ & _ & Hsecond).
  split; [exact Hl|]. split; [|exact Hsecond].
  unfold s'. rewrite Hfirst. rewrite Hopen; [reflexivity|by apply elem_of_singleton].
Defined.

(** ** Serving errors *)


(** ** The webhook *)

Section Webhook.
Context `{External}.
Variables (s : Config) (annotation : string).

(** *** One alert *)




(** *** The loop *)


(** The calls are those of [callsFor], in the order of the batch, up to
    the alert at which the handler returned. *)
Lemma rangeAlerts_calls (alerts : models.PostableAlerts) (st : LoopState) :
  exists k : nat,
    loop_calls (rangeAlerts s annotation alerts st).2 =
      loop_calls st ++ take k (callsFor s (loop_request st) alerts) /\
    (k <= length alerts)%nat /\
    ((rangeAlerts s annotation alerts st).1.1 = Continue -> k = length alerts).
Proof.
  revert st. induction alerts as [|alert rest IH]; intros st; simpl.
  - exists 0%nat. by rewrite app_nil_r.
  - unfold alertBody.
    destruct (Analyze _ _ _) as [[err|resp] service]; simpl.
    + exists 1%nat. simpl. rewrite take_0. split; [done|]. split; [lia|done].
    + match goal with
      | |- context [rangeAlerts s annotation rest ?st0] =>
          destruct (IH st0) as (k & Hc & Hk & Hf);
          destruct (rangeAlerts s annotation rest st0) as [[flow rest'] st''] eqn:E
      end.
      simpl in *. exists (S k). rewrite Hc. simpl.
      rewrite <- app_assoc. split; [done|]. split; [lia|]. intros ->. by rewrite Hf.
Qed.





(** *** The annotations *)

Lemma annotate_Labels results alert :
  models.Labels (annotate annotation results alert) = models.Labels alert.
Proof.
  revert alert. induction results as [|result results IH]; intros alert; [done|].
  unfold annotate in *. simpl. by rewrite IH.
Qed.

Lemma annotate_Annotations results alert :
  models.Annotations (annotate annotation results alert) =
  foldl (fun m result => <[annotation := schemav1.Details result]> m)
        (models.Annotations alert) results.
Proof.
  revert alert. induction results as [|result results IH]; intros alert; [done|].
  unfold annotate in *. simpl. by rewrite IH.
Qed.

Lemma foldl_insert_last (results : list schemav1.Result) (m : gmap string string) :
  foldl (fun m result => <[annotation := schemav1.Details result]> m) m results =
  match last results with
  | Some result => <[annotation := schemav1.Details result]> m
  | None => m
  end.
Proof.
  revert m. induction results as [|result results IH]; intros m; [done|].
  simpl foldl. rewrite IH. destruct results as [|result' results]; [reflexivity|].
  rewrite last_cons_cons.
  destruct (last (result' :: results)) eqn:E; [|by apply last_None in E].
  by rewrite insert_insert_eq.
Qed.

End Webhook.

Section WebhookHandler.
Context `{External}.


Lemma length_callsFor (s : Config) req (alerts : models.PostableAlerts) :
  length (callsFor s req alerts) = length alerts.
Proof.
  revert req. induction alerts as [|alert rest IH]; intros req; simpl; [done|].
  by rewrite IH.
Qed.

Lemma callsFor_receiver (s : Config) req (alerts : models.PostableAlerts) call :
  call ∈ callsFor s req alerts -> call_receiver call = AnalyzeHandler s.
Proof.
  revert req. induction alerts as [|alert rest IH]; intros req; simpl.
  - by intros ?%elem_of_nil.
  - intros [->|Hin]%elem_of_cons; [done|]. by eapply IH.
Qed.

Lemma alertsHandler_decoded s w r service alerts :
  json_Decode (Body r) = inr alerts ->
  alertsHandler s w r service =
    let '(_, alerts', st) :=
      rangeAlerts s (Values_Get (Query r) "annotation") alerts (loopEntry w r service) in
    {| run_w := loop_w st;
       run_alerts := alerts';
       run_service := loop_service st;
       run_calls := loop_calls st;
       run_logged := ["extracting alert payload"] |}.
Proof. intros Hd. unfold alertsHandler. by rewrite Hd. Qed.

(** Every call of the service the webhook makes has the handler of the
    configuration as its receiver. *)
Lemma alertsHandler_receiver s w r service call :
  call ∈ run_calls (alertsHandler s w r service) ->
  call_receiver call = AnalyzeHandler s.
Proof.
  unfold alertsHandler. destruct (json_Decode (Body r)) as [err|alerts]; simpl.
  - by intros ?%elem_of_nil.
  - pose proof (rangeAlerts_calls s (Values_Get (Query r) "annotation") alerts
                  (loopEntry w r service)) as (k & Hc & _).
    unfold loopEntry in Hc.
    destruct (rangeAlerts _ _ _ _) as [[flow alerts'] st]. simpl in *.
    rewrite Hc. intros Hin. apply (subseteq_take k) in Hin. by eapply callsFor_receiver.
Qed.

(** C4.  When the body does not decode, the handler writes
    "decode alerts. err: " followed by the text of the error, makes no call
    of the analysis service, calls [WriteHeader] not once (so the status
    sent for a fresh writer is the implicit 200), and leaves everything
    else as it was. *)
Theorem alertsHandler_decode_error s w r service err :
  json_Decode (Body r) = inl err ->
  let run := alertsHandler s w r service in
  run_w run = Write ("decode alerts. err: " +:+ Error err) w /\
  body (run_w run) = body w +:+ "decode alerts. err: " +:+ Error err /\
  run_calls run = [] /\
  run_service run = service /\
  run_alerts run = [] /\
  explicitStatus (run_w run) = explicitStatus w /\
  (w = [] -> statusCode (run_w run) = 200).
Proof.
  intros Hd. unfold alertsHandler. rewrite Hd. simpl.
  split; [done|]. split; [by rewrite body_Write|]. do 3 (split; [done|]).
  split; [by rewrite explicitStatus_Write|]. by intros ->.
Qed.



End WebhookHandler.

(** C4 on a body that does not decode. *)
Lemma alertsHandler_decode_error_witness :
  let E := scripted (inr 1%positive) None None None
             (inl (errorString "unexpected EOF")) (fun _ => inr onePod) in
  let run := @alertsHandler E (exampleConfig false) []
               (exampleRequest 1 "application/json" "/") 0%nat in
  run_w run = [CallWrite "decode alerts. err: unexpected EOF"] /\
  run_calls run = [] /\
  explicitStatus (run_w run) = [] /\
  statusCode (run_w run) = 200.
Proof.
  intros E run.
  pose proof (@alertsHandler_decode_error E (exampleConfig false) []
                (exampleRequest 1 "application/json" "/") 0%nat
                (errorString "unexpected EOF") eq_refl)
    as (Hw & _ & Hc & _ & _ & He & Hs).
  split; [exact Hw|]. split; [exact Hc|]. split; [exact He|]. exact (Hs eq_refl).
Defined.



(** ** The namespace of the request *)

Section Namespace.
Context `{External}.

(** The request object keeps the namespace it has when the alert carries
    no "namespace" label. *)
Lemma requestFor_Namespace alert req :
  schemav1.Namespace (requestFor alert req) =
  default (schemav1.Namespace req) (models.Labels alert !! "namespace").
Proof. unfold requestFor. by destruct (models.Labels alert !! "namespace"). Qed.

(** The first call of a batch carries the namespace label of the first
    alert, or the empty namespace. *)
Lemma first_call_Namespace (s : Config) (r : Request) alert rest :
  (fun call => schemav1.Namespace (call_request call)) <$>
    head (callsFor s (prepareRequest (Query r)) (alert :: rest)) =
  Some (namespaceLabel alert).
Proof. simpl. by rewrite requestFor_Namespace. Qed.

(** When every alert of the batch carries the label, every call carries
    the label of its alert. *)
Lemma callsFor_Namespace_labelled (s : Config) req (alerts : models.PostableAlerts) :
  Forall (fun alert => is_Some (models.Labels alert !! "namespace")) alerts ->
  Forall (fun call =>
            schemav1.Namespace (call_request call) = namespaceLabel (call_alert call))
         (callsFor s req alerts).
Proof.
  intros Hall. revert req. induction Hall as [|alert rest [ns Hns] _ IH]; intros req; simpl.
  - constructor.
  - constructor; [|apply IH]. simpl.
    rewrite requestFor_Namespace. unfold namespaceLabel. by rewrite Hns.
Qed.

(** An alert without the label is analysed in the namespace of the alert
    before it. *)
Lemma callsFor_Namespace_carried (s : Config) req labelled bare ns :
  models.Labels labelled !! "namespace" = Some ns ->
  models.Labels bare !! "namespace" = None ->
  (fun call => schemav1.Namespace (call_request call)) <$>
    callsFor s req [labelled; bare] = [ns; ns].
Proof.
  intros Hl Hb. simpl. rewrite !requestFor_Namespace, Hb, Hl. done.
Qed.

End Namespace.

(** C2, at the failing input.  On the batch of an alert labelled with the
    namespace "prod" followed by an alert without labels, with an analysis
    service that succeeds, the handler calls the service once per alert, in
    order, and passes the namespace "prod" both times, where the second
    alert asks for the empty namespace. *)
Theorem alertsHandler_namespace_carried_over :
  let E := scripted (inr 1%positive) None None None
             (inr [alertProd; alertBare]) (fun _ => inr onePod) in
  let run := @alertsHandler E (exampleConfig false) []
               (exampleRequest 1 "application/json" "/") 0%nat in
  call_alert <$> run_calls run = [alertProd; alertBare] /\
  (fun call => schemav1.Namespace (call_request call)) <$> run_calls run =
    ["prod"; "prod"] /\
  namespaceLabel <$> [alertProd; alertBare] = ["prod"; ""].
Proof. repeat split; reflexivity. Qed.

(** ** The handlers of the configuration *)

Section Handlers.
Context `{External}.

(** C10, amended.  When binding the listener succeeds, [Serve] leaves the
    empty handlers in [ConfigHandler] and [AnalyzeHandler], whatever the
    two fields held, and the webhook then calls the analysis service on
    that empty handler; when binding fails, [Serve] leaves the
    configuration as it was; on any configuration, the webhook calls the
    analysis service on the handler the configuration holds, which is
    [nil] when none was supplied and [Serve] has not run. *)
Theorem Serve_replaces_handlers (s : Config) :
  (forall lis, net_Listen "tcp" (":" +:+ Port s) = inr lis ->
     ConfigHandler (Serve s).1.1 = Some config_Handler_empty /\
     AnalyzeHandler (Serve s).1.1 = Some analyze_Handler_empty /\
     forall w r service call,
       call ∈ run_calls (alertsHandler (Serve s).1.1 w r service) ->
       call_receiver call = Some analyze_Handler_empty) /\
  (forall err, net_Listen "tcp" (":" +:+ Port s) = inl err ->
     (Serve s).1.1 = s) /\
  (forall w r service call,
     call ∈ run_calls (alertsHandler s w r service) ->
     call_receiver call = AnalyzeHandler s) /\
  (AnalyzeHandler s = None ->
   forall w r service call,
     call ∈ run_calls (alertsHandler s w r service) ->
     call_receiver call = None).
Proof.
  split; [|split; [|split]].
  - intros lis Hl. rewrite (Serve_config s lis Hl).
    split; [done|]. split; [done|].
    intros w r service call Hin. by apply alertsHandler_receiver in Hin.
  - intros err Hl. by rewrite (Serve_bind_error s err Hl).
  - intros w r service call. apply alertsHandler_receiver.
  - intros Hn w r service call Hin. apply alertsHandler_receiver in Hin. congruence.
Qed.

End Handlers.

(** C10 as stated fails twice.  When the port is taken, [Serve] returns the
    bind error and the handlers the caller supplied are still in place; and
    on a configuration on which [Serve] has not run, the webhook calls the
    analysis service on the handler the caller supplied. *)
Lemma Serve_keeps_handlers_on_bind_error :
  let E := scripted (inl (errorString "listen tcp :8080: bind: address already in use"))
             None None None (inr [alertProd]) (fun _ => inr onePod) in
  let s := @withHandlers E (Some "custom config") (Some "custom analyze")
             (exampleConfig true) in
  (@Serve E s).2 =
    Returns (Some (errorString "listen tcp :8080: bind: address already in use")) /\
  AnalyzeHandler (@Serve E s).1.1 = Some "custom analyze" /\
  AnalyzeHandler (@Serve E s).1.1 <> Some (@analyze_Handler_empty E) /\
  ConfigHandler (@Serve E s).1.1 <> Some (@config_Handler_empty E) /\
  call_receiver <$> run_calls (@alertsHandler E s []
                                 (exampleRequest 1 "application/json" "/") 0%nat) =
    [Some "custom analyze"].
Proof. repeat split; (reflexivity || discriminate). Qed.

(** C10, amended, on a configuration with supplied handlers whose listener
    binds, and on a configuration without handlers. *)
Lemma Serve_replaces_handlers_witness :
  let E := scripted (inr 1%positive) None None None (inr [alertProd]) (fun _ => inr onePod) in
  let s := @withHandlers E (Some "custom config") (Some "custom analyze")
             (exampleConfig false) in
  AnalyzeHandler (@Serve E s).1.1 = Some "" /\
  ConfigHandler (@Serve E s).1.1 = Some "" /\
  (forall call,
     call ∈ run_calls (@alertsHandler E (exampleConfig false) []
                         (exampleRequest 1 "application/json" "/") 0%nat) ->
     call_receiver call = None).
Proof.
  intros E s.
  pose proof (@Serve_replaces_handlers E s) as (Hbound & _ & _ & _).
  destruct (Hbound 1%positive eq_refl) as (Hc & Ha & _).
  pose proof (@Serve_replaces_handlers E (exampleConfig false)) as (_ & _ & _ & Hnil).
  split; [exact Ha|]. split; [exact Hc|].
  intros call. exact (Hnil eq_refl [] (exampleRequest 1 "application/json" "/") 0%nat call).
Defined.

(** * Further properties of the package *)

(** ** Errors *)

Lemma errors_Is_wraps (err target : error) :
  errors_Is err target = true <-> wraps target err.
Proof.
  induction err as [| |text|text inner IH]; simpl.
  - rewrite orb_false_r, bool_decide_eq_true. split; [intros <-; constructor|].
    by inversion 1.
  - rewrite orb_false_r, bool_decide_eq_true. split; [intros <-; constructor|].
    by inversion 1.
  - rewrite orb_false_r, bool_decide_eq_true. split; [intros <-; constructor|].
    by inversion 1.
  - rewrite orb_true_iff, bool_decide_eq_true, IH. split.
    + intros [<-|Hw]; [constructor|by constructor].
    + inversion 1; subst; [by left|by right].
Qed.

Lemma errors_Is_not_wraps (err target : error) :
  errors_Is err target = false <-> ~ wraps target err.
Proof.
  rewrite <- errors_Is_wraps. by destruct (errors_Is err target).
Qed.

(** ** The three servers and the configuration *)

Section Servers.
Context `{External}.

Lemma ServeMetrics_config (s : Config) :
  (ServeMetrics s).1.1 =
    setMetricsServer {| Addr := ":" +:+ MetricsPort s;
                        ReadHeaderTimeout := 3;
                        ServerHandler := Some metricsHandlerFunc |} s.
Proof.
  unfold ServeMetrics. simpl.
  destruct (http_Server_ListenAndServe _) as [err|]; [|done].
  by destruct (errors_Is err http_ErrServerClosed).
Qed.

Lemma ServeAlerts_config (s : Config) :
  (ServeAlerts s).1 =
    setAlertmanagerServer {| Addr := ":" +:+ AlertmanagerPort s;
                             ReadHeaderTimeout := 0;
                             ServerHandler := Some alertsHandlerFunc |} s.
Proof.
  unfold ServeAlerts. simpl.
  destruct (http_Server_ListenAndServe _) as [err|]; [|done].
  by destruct (errors_Is err http_ErrServerClosed).
Qed.

(** X1.  With the gateway disabled and the listener bound, [Serve] never
    ends the process, returns [nil] when [grpcServer.Serve] returns [nil] or
    an error that is or wraps (at any depth) [http.ErrServerClosed], and
    returns the error of [grpcServer.Serve] itself in every other case. *)
Theorem Serve_grpc_only_result (s : Config) (lis : Listener) :
  EnableHttp s = false ->
  net_Listen "tcp" (":" +:+ Port s) = inr lis ->
  (grpc_Server_Serve lis = None -> (Serve s).2 = Returns None) /\
  (forall err, grpc_Server_Serve lis = Some err ->
     wraps http_ErrServerClosed err -> (Serve s).2 = Returns None) /\
  (forall err, grpc_Server_Serve lis = Some err ->
     ~ wraps http_ErrServerClosed err -> (Serve s).2 = Returns (Some err)) /\
  (forall code, (Serve s).2 <> Exits code) /\
  (Serve s).1.2 = ["binding api to " +:+ Port s].
Proof.
  intros He Hl. unfold Serve. rewrite Hl. simpl. rewrite He.
  split; [by intros ->|]. split; [|split; [|split]].
  - intros err -> Hw%errors_Is_wraps. by rewrite Hw.
  - intros err -> Hw%errors_Is_not_wraps. by rewrite Hw.
  - intros code. destruct (grpc_Server_Serve lis) as [err|]; [|done].
    by destruct (errors_Is err http_ErrServerClosed).
  - destruct (grpc_Server_Serve lis) as [err|]; [|done].
    by destruct (errors_Is err http_ErrServerClosed).
Qed.

(** X2.  [ServeMetrics] stores a server bound to ":" followed by the metrics
    port, with a read-header timeout of 3 seconds and the metrics handler,
    and changes no other field; it returns [nil] when [ListenAndServe]
    returns [nil] or an error that is or wraps [http.ErrServerClosed], and
    the error of [ListenAndServe] itself otherwise. *)
Theorem ServeMetrics_result (s : Config) :
  (ServeMetrics s).1.1 =
    setMetricsServer {| Addr := ":" +:+ MetricsPort s;
                        ReadHeaderTimeout := 3;
                        ServerHandler := Some metricsHandlerFunc |} s /\
  (http_Server_ListenAndServe (":" +:+ MetricsPort s) = None ->
     (ServeMetrics s).2 = None) /\
  (forall err, http_Server_ListenAndServe (":" +:+ MetricsPort s) = Some err ->
     wraps http_ErrServerClosed err -> (ServeMetrics s).2 = None) /\
  (forall err, http_Server_ListenAndServe (":" +:+ MetricsPort s) = Some err ->
     ~ wraps http_ErrServerClosed err -> (ServeMetrics s).2 = Some err).
Proof.
  split; [apply ServeMetrics_config|]. unfold ServeMetrics. simpl.
  split; [|split].
  - by intros ->.
  - intros err -> Hw%errors_Is_wraps. by rewrite Hw.
  - intros err -> Hw%errors_Is_not_wraps. by rewrite Hw.
Qed.

(** X3.  [ServeAlerts] stores a server bound to ":" followed by the
    Alertmanager port, with no read-header timeout and the webhook handler,
    and changes no other field; it returns [nil] when [ListenAndServe]
    returns [nil] or an error that is or wraps [http.ErrServerClosed], and
    the error of [ListenAndServe] itself otherwise. *)
Theorem ServeAlerts_result (s : Config) :
  (ServeAlerts s).1 =
    setAlertmanagerServer {| Addr := ":" +:+ AlertmanagerPort s;
                             ReadHeaderTimeout := 0;
                             ServerHandler := Some alertsHandlerFunc |} s /\
  (http_Server_ListenAndServe (":" +:+ AlertmanagerPort s) = None ->
     (ServeAlerts s).2 = None) /\
  (forall err, http_Server_ListenAndServe (":" +:+ AlertmanagerPort s) = Some err ->
     wraps http_ErrServerClosed err -> (ServeAlerts s).2 = None) /\
  (forall err, http_Server_ListenAndServe (":" +:+ AlertmanagerPort s) = Some err ->
     ~ wraps http_ErrServerClosed err -> (ServeAlerts s).2 = Some err).
Proof.
  split; [apply ServeAlerts_config|]. unfold ServeAlerts. simpl.
  split; [|split].
  - by intros ->.
  - intros err -> Hw%errors_Is_wraps. by rewrite Hw.
  - intros err -> Hw%errors_Is_not_wraps. by rewrite Hw.
Qed.

Lemma Serve_config_cases (s : Config) :
  (Serve s).1.1 =
    match net_Listen "tcp" (":" +:+ Port s) with
    | inl _ => s
    | inr lis => bindListener lis s
    end.
Proof.
  unfold Serve. destruct (net_Listen _ _) as [err|lis]; [done|]. simpl.
  repeat (case_match; simpl); done.
Qed.

(** X4.  However [Serve] ends (bind error, fatal registration error, serving
    error or [nil]), it leaves the ports, the backend, the key, the token,
    the output mode, the gateway flag and the two auxiliary servers of the
    configuration as they were. *)
Theorem Serve_keeps_settings (s : Config) :
  let s' := (Serve s).1.1 in
  Port s' = Port s /\
  MetricsPort s' = MetricsPort s /\
  AlertmanagerPort s' = AlertmanagerPort s /\
  Backend s' = Backend s /\
  Key s' = Key s /\
  Token s' = Token s /\
  Output s' = Output s /\
  EnableHttp s' = EnableHttp s /\
  metricsServer s' = metricsServer s /\
  alertmanagerServer s' = alertmanagerServer s.
Proof.
  intros s'. unfold s'. rewrite Serve_config_cases.
  by destruct (net_Listen _ _).
Qed.


(** X6.  [Shutdown] on a configuration whose listener was never bound
    panics and closes nothing; this is so before [Serve] has run and after a
    [Serve] that failed to bind. *)
Theorem Shutdown_without_listener (s : Config) (n : Net) :
  listener s = None ->
  (exists reason, Shutdown s n = (Panics reason, n)) /\
  (forall err, net_Listen "tcp" (":" +:+ Port s) = inl err ->
     (Serve s).2 = Returns (Some err) /\
     exists reason, Shutdown (Serve s).1.1 n = (Panics reason, n)).
Proof.
  intros Hl. split.
  - unfold Shutdown. rewrite Hl. by eexists.
  - intros err He. rewrite Serve_config_cases. unfold Serve. rewrite He.
    split; [done|]. unfold Shutdown. rewrite Hl. by eexists.
Qed.

End Servers.

(** X1 on a serving error that wraps [http.ErrServerClosed], and on one
    that does not. *)
Lemma Serve_grpc_only_result_witness :
  (@Serve (scripted (inr 1%positive) None None (Some (wrapped http_ErrServerClosed))
             (inr []) (fun _ => inr onePod)) (exampleConfig false)).2 = Returns None /\
  (@Serve (scripted (inr 1%positive) None None (Some (wrapped net_ErrClosed))
             (inr []) (fun _ => inr onePod)) (exampleConfig false)).2 =
    Returns (Some (wrapped net_ErrClosed)).
Proof.
  split.
  - destruct (@Serve_grpc_only_result
                (scripted (inr 1%positive) None None (Some (wrapped http_ErrServerClosed))
                   (inr []) (fun _ => inr onePod))
                (exampleConfig false) 1%positive eq_refl eq_refl) as (_ & Hw & _).
    apply (Hw (wrapped http_ErrServerClosed) eq_refl).
    apply wraps_inner, wraps_here.
  - destruct (@Serve_grpc_only_result
                (scripted (inr 1%positive) None None (Some (wrapped net_ErrClosed))
                   (inr []) (fun _ => inr onePod))
                (exampleConfig false) 1%positive eq_refl eq_refl) as (_ & _ & Hn & _).
    apply (Hn (wrapped net_ErrClosed) eq_refl).
    intros Hw. apply errors_Is_wraps in Hw. discriminate.
Defined.

(** X2 on a [ListenAndServe] that ends with a wrapped
    [http.ErrServerClosed]. *)
Lemma ServeMetrics_result_witness :
  let E := scripted (inr 1%positive) None None (Some (wrapped http_ErrServerClosed))
             (inr []) (fun _ => inr onePod) in
  (@ServeMetrics E (exampleConfig false)).2 = None /\
  metricsServer (@ServeMetrics E (exampleConfig false)).1.1 =
    Some {| Addr := ":8081"; ReadHeaderTimeout := 3;
            ServerHandler := Some metricsHandlerFunc |}.
Proof.
  intros E.
  destruct (@ServeMetrics_result E (exampleConfig false)) as (Hc & _ & Hw & _).
  split.
  - apply (Hw (wrapped http_ErrServerClosed) eq_refl). apply wraps_inner, wraps_here.
  - rewrite Hc. reflexivity.
Defined.

(** X3 on a [ListenAndServe] that ends with a bind error. *)
Lemma ServeAlerts_result_witness :
  let E := scripted (inr 1%positive) None None
             (Some (errorString "listen tcp :8082: bind: address already in use"))
             (inr []) (fun _ => inr onePod) in
  (@ServeAlerts E (exampleConfig false)).2 =
    Some (errorString "listen tcp :8082: bind: address already in use") /\
  alertmanagerServer (@ServeAlerts E (exampleConfig false)).1 =
    Some {| Addr := ":8082"; ReadHeaderTimeout := 0;
            ServerHandler := Some alertsHandlerFunc |}.
Proof.
  intros E.
  destruct (@ServeAlerts_result E (exampleConfig false)) as (Hc & _ & _ & Hn).
  split.
  - apply (Hn _ eq_refl). intros Hw. apply errors_Is_wraps in Hw. discriminate.
  - rewrite Hc. reflexivity.
Defined.

(** X6 on a configuration whose port is taken. *)
Lemma Shutdown_without_listener_witness :
  let E := scripted (inl (errorString "listen tcp :8080: bind: address already in use"))
             None None None (inr []) (fun _ => inr onePod) in
  (exists reason, @Shutdown E (exampleConfig false) {[ 1%positive ]} =
                    (Panics reason, {[ 1%positive ]})) /\
  (exists reason, @Shutdown E (@Serve E (exampleConfig false)).1.1 {[ 1%positive ]} =
                    (Panics reason, {[ 1%positive ]})).
Proof.
  intros E.
  destruct (@Shutdown_without_listener E (exampleConfig false) {[ 1%positive ]} eq_refl)
    as (Hp & Hs).
  split; [exact Hp|].
  exact (proj2 (Hs (errorString "listen tcp :8080: bind: address already in use") eq_refl)).
Defined.

(** ** Further properties of the webhook *)

Section WebhookInvariants.
Context `{External}.

Lemma requestFor_fields alert req :
  schemav1.Backend (requestFor alert req) = schemav1.Backend req /\
  schemav1.Language (requestFor alert req) = schemav1.Language req /\
  schemav1.Filters (requestFor alert req) = schemav1.Filters req /\
  schemav1.Nocache (requestFor alert req) = schemav1.Nocache req /\
  schemav1.Explain (requestFor alert req) = schemav1.Explain req.
Proof. unfold requestFor. by destruct (models.Labels alert !! "namespace"). Qed.

Lemma callsFor_fields (s : Config) req (alerts : models.PostableAlerts) call :
  call ∈ callsFor s req alerts ->
  schemav1.Backend (call_request call) = schemav1.Backend req /\
  schemav1.Language (call_request call) = schemav1.Language req /\
  schemav1.Filters (call_request call) = schemav1.Filters req /\
  schemav1.Nocache (call_request call) = schemav1.Nocache req /\
  schemav1.Explain (call_request call) = schemav1.Explain req.
Proof.
  revert req. induction alerts as [|alert rest IH]; intros req; simpl.
  - by intros ?%elem_of_nil.
  - destruct (requestFor_fields alert req) as (Hb & Hl & Hf & Hn & He).
    intros [->|Hin]%elem_of_cons; [done|].
    destruct (IH _ Hin) as (-> & -> & -> & -> & ->). done.
Qed.

(** The calls of one webhook run are a prefix of [callsFor]. *)
Lemma alertsHandler_calls s w r service alerts :
  json_Decode (Body r) = inr alerts ->
  exists k : nat,
    run_calls (alertsHandler s w r service) =
      take k (callsFor s (prepareRequest (Query r)) alerts) /\
    (k <= length alerts)%nat.
Proof.
  intros Hd. rewrite (alertsHandler_decoded _ _ _ _ _ Hd).
  pose proof (rangeAlerts_calls s (Values_Get (Query r) "annotation") alerts
                (loopEntry w r service)) as (k & Hc & Hk & _).
  destruct (rangeAlerts _ _ _ _) as [[flow alerts'] st]. simpl in *.
  exists k. done.
Qed.

(** X7.  Every request the webhook passes to the analysis service has the
    cache-bypass and explanation flags set, and takes its backend, its
    language and its filters from the query parameters "backend",
    "language" and "filters" of the HTTP request (empty when the parameter
    is missing), whatever the configuration holds. *)
Theorem alertsHandler_request_fields s w r service call :
  call ∈ run_calls (alertsHandler s w r service) ->
  schemav1.Nocache (call_request call) = true /\
  schemav1.Explain (call_request call) = true /\
  schemav1.Backend (call_request call) = Values_Get (Query r) "backend" /\
  schemav1.Language (call_request call) = Values_Get (Query r) "language" /\
  schemav1.Filters (call_request call) = default [] (Query r !! "filters") /\
  (Query r !! "backend" = None -> schemav1.Backend (call_request call) = "") /\
  (Query r !! "filters" = None -> schemav1.Filters (call_request call) = []).
Proof.
  intros Hin.
  assert (Hf : schemav1.Backend (call_request call) = Values_Get (Query r) "backend" /\
               schemav1.Language (call_request call) = Values_Get (Query r) "language" /\
               schemav1.Filters (call_request call) = default [] (Query r !! "filters") /\
               schemav1.Nocache (call_request call) = true /\
               schemav1.Explain (call_request call) = true).
  { destruct (json_Decode (Body r)) as [err|alerts] eqn:Hd.
    - unfold alertsHandler in Hin. rewrite Hd in Hin. by apply elem_of_nil in Hin.
    - destruct (alertsHandler_calls s w r service alerts Hd) as (k & Hc & _).
      rewrite Hc in Hin. apply (subseteq_take k) in Hin.
      by apply callsFor_fields in Hin. }
  destruct Hf as (Hb & Hl & Hfi & Hn & He).
  repeat (split; [done|]). split.
  - intros Hm. rewrite Hb. unfold Values_Get. by rewrite Hm.
  - intros Hm. by rewrite Hfi, Hm.
Qed.

Lemma rangeAlerts_w (s : Config) annotation (alerts : models.PostableAlerts) st :
  loop_w (rangeAlerts s annotation alerts st).2 = loop_w st \/
  exists err, loop_w (rangeAlerts s annotation alerts st).2 =
                Write ("analyze. err: " +:+ Error err) (loop_w st).
Proof.
  revert st. induction alerts as [|alert rest IH]; intros st; simpl; [by left|].
  unfold alertBody.
  destruct (Analyze _ _ _) as [[err|resp] service]; simpl.
  - right. by exists err.
  - match goal with
    | |- context [rangeAlerts s annotation rest ?st0] =>
        specialize (IH st0);
        destruct (rangeAlerts s annotation rest st0) as [[flow rest'] st'']
    end.
    done.
Qed.

(** X8.  On no path does the webhook handler call [WriteHeader]: it leaves
    the response writer as it was or adds one [Write] of an error text
    (which begins with "decode alerts. err: " or "analyze. err: "), so the
    status sent for a fresh writer is 200 whether or not decoding or
    analysis failed. *)
Theorem alertsHandler_status_untouched s w r service :
  let run := alertsHandler s w r service in
  (run_w run = w \/
   exists err, run_w run = Write ("decode alerts. err: " +:+ Error err) w \/
               run_w run = Write ("analyze. err: " +:+ Error err) w) /\
  explicitStatus (run_w run) = explicitStatus w /\
  statusCode (run_w (alertsHandler s [] r service)) = 200.
Proof.
  assert (Hw : forall w0,
            run_w (alertsHandler s w0 r service) = w0 \/
            exists err,
              run_w (alertsHandler s w0 r service) =
                Write ("decode alerts. err: " +:+ Error err) w0 \/
              run_w (alertsHandler s w0 r service) =
                Write ("analyze. err: " +:+ Error err) w0).
  { intros w0. unfold alertsHandler.
    destruct (json_Decode (Body r)) as [err|alerts]; simpl.
    - right. exists err. by left.
    - pose proof (rangeAlerts_w s (Values_Get (Query r) "annotation") alerts
                    (loopEntry w0 r service)) as Hr.
      unfold loopEntry in Hr.
      destruct (rangeAlerts _ _ _ _) as [[flow alerts'] st]. simpl in *.
      destruct Hr as [->|[err ->]]; [by left|]. right. exists err. by right. }
  intros run. subst run. split; [apply Hw|]. split.
  - destruct (Hw w) as [->|[err [->| ->]]];
      [done|apply explicitStatus_Write|apply explicitStatus_Write].
  - destruct (Hw []) as [->|[err [->| ->]]]; done.
Qed.



Lemma annotate_other_keys annotation results alert key :
  key <> annotation ->
  models.Annotations (annotate annotation results alert) !! key =
  models.Annotations alert !! key.
Proof.
  intros Hne. rewrite annotate_Annotations, foldl_insert_last.
  destruct (last results); [|done]. by rewrite lookup_insert_ne.
Qed.

Lemma rangeAlerts_keeps (s : Config) annotation (alerts : models.PostableAlerts) st :
  Forall2 (fun alert alert' =>
             models.Labels alert' = models.Labels alert /\
             forall key, key <> annotation ->
               models.Annotations alert' !! key = models.Annotations alert !! key)
          alerts (rangeAlerts s annotation alerts st).1.2.
Proof.
  assert (Hrefl : forall l : models.PostableAlerts,
            Forall2 (fun alert alert' =>
                       models.Labels alert' = models.Labels alert /\
                       forall key, key <> annotation ->
                         models.Annotations alert' !! key = models.Annotations alert !! key)
                    l l).
  { intros l. induction l; constructor; done. }
  revert st. induction alerts as [|alert rest IH]; intros st; simpl; [constructor|].
  unfold alertBody.
  destruct (Analyze _ _ _) as [[err|resp] service]; simpl.
  - constructor; [done|apply Hrefl].
  - match goal with
    | |- context [rangeAlerts s annotation rest ?st0] =>
        specialize (IH st0);
        destruct (rangeAlerts s annotation rest st0) as [[flow rest'] st'']
    end.
    simpl in *. constructor; [|done].
    split; [apply annotate_Labels|]. intros key Hne. by apply annotate_other_keys.
Qed.

(** X10.  Whatever the analysis service answers, the webhook handler leaves
    as many alerts as were decoded, in the same order, each with its labels
    unchanged and with every annotation unchanged except the one under the
    key given by the query parameter "annotation". *)
Theorem alertsHandler_keeps_labels s w r service alerts :
  json_Decode (Body r) = inr alerts ->
  Forall2 (fun alert alert' =>
             models.Labels alert' = models.Labels alert /\
             forall key, key <> Values_Get (Query r) "annotation" ->
               models.Annotations alert' !! key = models.Annotations alert !! key)
          alerts (run_alerts (alertsHandler s w r service)).
Proof.
  intros Hd. rewrite (alertsHandler_decoded _ _ _ _ _ Hd).
  pose proof (rangeAlerts_keeps s (Values_Get (Query r) "annotation") alerts
                (loopEntry w r service)) as Hk.
  by destruct (rangeAlerts _ _ _ _) as [[flow alerts'] st].
Qed.

Lemma callsFor_namespaces (s : Config) req (alerts : models.PostableAlerts) :
  (fun call => schemav1.Namespace (call_request call)) <$> callsFor s req alerts =
  carriedNamespaces (schemav1.Namespace req) alerts.
Proof.
  revert req. induction alerts as [|alert rest IH]; intros req; simpl; [done|].
  by rewrite IH, requestFor_Namespace.
Qed.

(** X11.  The namespaces of the requests of one webhook run are, call by
    call, those of [carriedNamespaces] from the empty namespace: the label
    of the alert when it has one, and otherwise the namespace of the call
    before it (the empty namespace for the first call). *)
Theorem alertsHandler_namespaces s w r service alerts :
  json_Decode (Body r) = inr alerts ->
  let run := alertsHandler s w r service in
  (fun call => schemav1.Namespace (call_request call)) <$> run_calls run =
    take (length (run_calls run)) (carriedNamespaces "" alerts).
Proof.
  intros Hd run. subst run.
  destruct (alertsHandler_calls s w r service alerts Hd) as (k & -> & Hk).
  rewrite fmap_take, callsFor_namespaces, length_take, length_callsFor.
  simpl. by rewrite Nat.min_l.
Qed.

(** X12.  The first call of a webhook run carries the namespace label of
    the first alert (the empty namespace when it has none); and in a batch
    in which every alert has a "namespace" label, every call carries the
    label of its own alert. *)
Theorem alertsHandler_own_namespace s w r service alerts :
  json_Decode (Body r) = inr alerts ->
  let run := alertsHandler s w r service in
  (forall call, head (run_calls run) = Some call ->
     schemav1.Namespace (call_request call) = namespaceLabel (call_alert call)) /\
  (Forall (fun alert => is_Some (models.Labels alert !! "namespace")) alerts ->
   forall call, call ∈ run_calls run ->
     schemav1.Namespace (call_request call) = namespaceLabel (call_alert call)).
Proof.
  intros Hd run. subst run.
  destruct (alertsHandler_calls s w r service alerts Hd) as (k & -> & Hk).
  split.
  - intros call. destruct alerts as [|alert rest]; simpl; [by rewrite take_nil|].
    destruct k as [|k]; [done|]. simpl. intros [= <-]. simpl.
    by rewrite requestFor_Namespace.
  - intros Hall call Hin. apply (subseteq_take k) in Hin.
    pose proof (callsFor_Namespace_labelled s (prepareRequest (Query r)) alerts Hall) as Hf.
    rewrite Forall_forall in Hf. by apply Hf.
Qed.


End WebhookInvariants.

(** X7 on the request of the scenario of the spec: the backend is the one of
    the query, and no filter is given. *)
Lemma alertsHandler_request_fields_witness :
  let E := scripted (inr 1%positive) None None None (inr [alertProd]) (fun _ => inr onePod) in
  let call := @mkAnalyzeCall E None alertProd
                (requestFor alertProd
                   (prepareRequest (Query (exampleRequest 1 "application/json" "/")))) in
  schemav1.Nocache (call_request call) = true /\
  schemav1.Backend (call_request call) = "openai" /\
  schemav1.Filters (call_request call) = [].
Proof.
  intros E call.
  destruct (@alertsHandler_request_fields E (exampleConfig false) []
              (exampleRequest 1 "application/json" "/") 0%nat call)
    as (Hn & _ & Hb & _ & _ & _ & Hf).
  { apply list_elem_of_singleton. reflexivity. }
  split; [exact Hn|]. split; [exact Hb|]. exact (Hf eq_refl).
Defined.


(** X10 on the batch of two in which the second call fails. *)
Lemma alertsHandler_keeps_labels_witness :
  let E := scripted (inr 1%positive) None None None
             (inr [alertProd; alertBare]) failsAfterFirst in
  Forall2 (fun alert alert' =>
             models.Labels alert' = models.Labels alert /\
             forall key, key <> "summary" ->
               models.Annotations alert' !! key = models.Annotations alert !! key)
          [alertProd; alertBare]
          (run_alerts (@alertsHandler E (exampleConfig false) []
                         (exampleRequest 1 "application/json" "/") 0%nat)).
Proof.
  intros E.
  exact (@alertsHandler_keeps_labels E (exampleConfig false) []
           (exampleRequest 1 "application/json" "/") 0%nat
           [alertProd; alertBare] eq_refl).
Defined.

(** X11 on a labelled alert followed by one without labels. *)
Lemma alertsHandler_namespaces_witness :
  let E := scripted (inr 1%positive) None None None
             (inr [alertProd; alertBare]) (fun _ => inr onePod) in
  (fun call => schemav1.Namespace (call_request call)) <$>
    run_calls (@alertsHandler E (exampleConfig false) []
                 (exampleRequest 1 "application/json" "/") 0%nat) =
  carriedNamespaces "" [alertProd; alertBare].
Proof.
  intros E.
  rewrite (@alertsHandler_namespaces E (exampleConfig false) []
             (exampleRequest 1 "application/json" "/") 0%nat
             [alertProd; alertBare] eq_refl).
  reflexivity.
Defined.

(** X12 on a batch of two labelled alerts. *)
Lemma alertsHandler_own_namespace_witness :
  let E := scripted (inr 1%positive) None None None
             (inr [alertProd; alertProd]) (fun _ => inr onePod) in
  Forall (fun call =>
            schemav1.Namespace (call_request call) = namespaceLabel (call_alert call))
         (run_calls (@alertsHandler E (exampleConfig false) []
                       (exampleRequest 1 "application/json" "/") 0%nat)).
Proof.
  intros E.
  destruct (@alertsHandler_own_namespace E (exampleConfig false) []
              (exampleRequest 1 "application/json" "/") 0%nat
              [alertProd; alertProd] eq_refl) as (_ & Hall).
  apply Forall_forall. apply Hall. repeat constructor; by eexists.
Defined.


(** ** Further properties of the two routers *)

(** X14.  [grpcHandlerFunc] hands to the fallback handler every request
    that is not HTTP/2 and every request without a Content-Type header,
    whatever else it carries; of several Content-Type values it reads the
    first only; and on HTTP/2 every Content-Type that begins with
    "application/grpc", such as "application/grpc+proto", goes to the RPC
    dispatcher. *)
Theorem grpcHandlerFunc_edges (grpcServer otherHandler : Handler) w r :
  (ProtoMajor r <> 2 ->
     grpcHandlerFunc grpcServer otherHandler w r = otherHandler w r) /\
  (Header r !! "Content-Type" = None ->
     grpcHandlerFunc grpcServer otherHandler w r = otherHandler w r) /\
  (forall first rest,
     Header r !! "Content-Type" = Some (first :: rest) ->
     strings_Contains first "application/grpc" = false ->
     grpcHandlerFunc grpcServer otherHandler w r = otherHandler w r) /\
  (forall suffix rest,
     ProtoMajor r = 2 ->
     Header r !! "Content-Type" = Some (("application/grpc" +:+ suffix) :: rest) ->
     grpcHandlerFunc grpcServer otherHandler w r = grpcServer w r).
Proof.
  split; [|split; [|split]].
  - intros Hp. apply grpcHandlerFunc_other. by intros [? _].
  - intros Hh. unfold grpcHandlerFunc, Values_Get. rewrite Hh.
    by rewrite andb_false_r.
  - intros first rest Hh Hc. unfold grpcHandlerFunc, Values_Get. rewrite Hh, Hc.
    by rewrite andb_false_r.
  - intros suffix rest Hp Hh. apply grpcHandlerFunc_grpc. split; [done|].
    unfold Values_Get. rewrite Hh. by exists "", suffix.
Qed.

(** X14 on an HTTP/1.1 request with the gRPC content type, and on an HTTP/2
    request with the content type "application/grpc+proto". *)
Lemma grpcHandlerFunc_edges_witness :
  grpcHandlerFunc (fun w _ => Write "grpc" w) (fun w _ => Write "gateway" w) []
    (exampleRequest 1 "application/grpc" "/") = [CallWrite "gateway"] /\
  grpcHandlerFunc (fun w _ => Write "grpc" w) (fun w _ => Write "gateway" w) []
    (exampleRequest 2 "application/grpc+proto" "/") = [CallWrite "grpc"].
Proof.
  split.
  - destruct (grpcHandlerFunc_edges (fun w _ => Write "grpc" w)
                (fun w _ => Write "gateway" w) []
                (exampleRequest 1 "application/grpc" "/")) as (H1 & _).
    rewrite H1; [reflexivity|discriminate].
  - destruct (grpcHandlerFunc_edges (fun w _ => Write "grpc" w)
                (fun w _ => Write "gateway" w) []
                (exampleRequest 2 "application/grpc+proto" "/")) as (_ & _ & _ & H4).
    rewrite (H4 "+proto" [] eq_refl eq_refl). reflexivity.
Defined.

Section MetricsPaths.
Context `{External}.

(** X15.  The metrics handler matches paths exactly: a path that extends
    "/healthz" or "/metrics" by at least one character, and the empty path,
    get status 404 and are not handed to the metrics-exposition handler. *)
Theorem metricsHandler_exact_paths (s : Config) (w : ResponseWriter) (r : Request) :
  (forall suffix, suffix <> "" ->
     Path r = "/healthz" +:+ suffix \/ Path r = "/metrics" +:+ suffix ->
     metricsHandler s w r = WriteHeader 404 w) /\
  (Path r = "" -> metricsHandler s w r = WriteHeader 404 w).
Proof.
  unfold metricsHandler. split.
  - intros [|a suffix] Hne [-> | ->]; done.
  - by intros ->.
Qed.

End MetricsPaths.

(** X15 on the path "/healthz/". *)
Lemma metricsHandler_exact_paths_witness :
  let E := scripted (inr 1%positive) None None None (inr []) (fun _ => inr onePod) in
  statusCode (@metricsHandler E (exampleConfig false) []
                (exampleRequest 1 "" "/healthz/")) = 404.
Proof.
  intros E.
  destruct (@metricsHandler_exact_paths E (exampleConfig false) []
              (exampleRequest 1 "" "/healthz/")) as (Hs & _).
  rewrite (Hs "/" ltac:(discriminate) (or_introl eq_refl)). reflexivity.
Defined.

Section WebhookConfiguration.
Context `{External}.

Lemma rangeAlerts_handler_only (s1 s2 : Config) annotation
    (alerts : models.PostableAlerts) st :
  AnalyzeHandler s1 = AnalyzeHandler s2 ->
  rangeAlerts s1 annotation alerts st = rangeAlerts s2 annotation alerts st.
Proof.
  intros Hh. revert st. induction alerts as [|alert rest IH]; intros st; simpl; [done|].
  unfold alertBody. rewrite Hh.
  destruct (Analyze _ _ _) as [[err|resp] service]; [done|]. by rewrite IH.
Qed.

(** X16.  Of the configuration, the webhook handler reads the analysis
    handler and nothing else: two configurations with the same
    [AnalyzeHandler] give the same run on every request, whatever their
    ports, backend, key, token, output mode, gateway flag and servers. *)
Theorem alertsHandler_reads_handler_only (s1 s2 : Config) w r service :
  AnalyzeHandler s1 = AnalyzeHandler s2 ->
  alertsHandler s1 w r service = alertsHandler s2 w r service.
Proof.
  intros Hh. unfold alertsHandler.
  destruct (json_Decode (Body r)) as [err|alerts]; [done|].
  by rewrite (rangeAlerts_handler_only s1 s2 _ _ _ Hh).
Qed.

End WebhookConfiguration.

(** X16 on two configurations that differ in the gateway flag, before and
    after [ServeMetrics]. *)
Lemma alertsHandler_reads_handler_only_witness :
  let E := scripted (inr 1%positive) None None None
             (inr [alertProd; alertBare]) failsAfterFirst in
  @alertsHandler E (exampleConfig false) [] (exampleRequest 1 "application/json" "/") 0%nat =
  @alertsHandler E (@ServeMetrics E (exampleConfig true)).1.1 []
    (exampleRequest 1 "application/json" "/") 0%nat.
Proof.
  intros E.
  exact (@alertsHandler_reads_handler_only E (exampleConfig false)
           (@ServeMetrics E (exampleConfig true)).1.1 []
           (exampleRequest 1 "application/json" "/") 0%nat eq_refl).
Defined.
